(** * Error normalisation of [backend/app/main.py]

    A shallow embedding of the three exception handlers installed by
    [add_exception_handlers] and the properties of the response envelope
    they produce.

    Modelling conventions.
    - A Python [str] is a [string] (the UTF-8 bytes of the text).
    - A Python [dict] with string keys is a [gmap string value]; the JSON
      object sent to the client does not depend on key order.
    - A call that may raise returns a [Py.result]; [try]/[except] is
      [Py.try_except].
    - [datetime.utcnow().isoformat()] is an input of each handler: the text
      the clock yields when the handler reads it.
    - The first two handlers are modelled on a [Request] whose URL parses;
      the catch-all handler, whose [except] block reads the request a
      second time, on an [Incoming] request, whose URL may fail to parse. *)

From Stdlib Require Import ZArith NArith Ascii String.
From stdpp Require Import gmap strings list fin_maps pretty.

Local Open Scope string_scope.
Local Open Scope Z_scope.
#[local] Set Warnings "-clear-no-such-hyp".

(** ** Python values, exceptions and builtins *)

Module Py.

(** Values a JSON-able [detail] payload is made of.  Floats and lists are
    left out: no line of the handlers looks inside one. *)
Inductive scalar :=
| SNone
| SBool (b : bool)
| SInt (z : Z)
| SStr (s : string).

#[warnings="-register-all"]
Inductive value :=
| VScalar (c : scalar)
| VDict (d : gmap string value).

Abbreviation VNone := (VScalar SNone).
Abbreviation VBool b := (VScalar (SBool b)).
Abbreviation VInt z := (VScalar (SInt z)).
Abbreviation VStr s := (VScalar (SStr s)).

(** Exceptions of class [Exception]: the ones the modelled code raises by
    itself, [OtherError] for one raised by code outside this file, and
    [Unprintable] for one whose own [__str__] raises. *)
Inductive exn :=
| AttributeError (type_name attribute : string)
| UnboundLocalError (variable : string)
| TypeError (text : string)
| ValueError (text : string)
| OtherError (text : string)
| Unprintable (raised : exn).

Inductive result (A : Type) :=
| Returns (a : A)
| Raises (e : exn).
Arguments Returns {A} a.
Arguments Raises {A} e.

Definition bind {A B} (m : result A) (k : A -> result B) : result B :=
  match m with
  | Returns a => k a
  | Raises e => Raises e
  end.

(** [try: body except Exception as e: handler(e)] *)
Definition try_except {A} (body : result A) (handler : exn -> result A)
  : result A :=
  match body with
  | Returns a => Returns a
  | Raises e => handler e
  end.

#[export] Instance result_bind : MBind result :=
  fun A B k m => bind m k.

(** [str(e)] on an exception: the builtin ones print their message, an
    [Unprintable] one raises from its [__str__]. *)
Definition exn_str (e : exn) : result string :=
  match e with
  | AttributeError type_name attribute =>
      Returns ("'" +:+ type_name +:+ "' object has no attribute '"
               +:+ attribute +:+ "'")
  | UnboundLocalError variable =>
      Returns ("cannot access local variable '" +:+ variable
               +:+ "' where it is not associated with a value")
  | TypeError text | ValueError text | OtherError text => Returns text
  | Unprintable raised => Raises raised
  end.

(** [str(x)] on the scalars. *)
Definition str (c : scalar) : string :=
  match c with
  | SNone => "None"
  | SBool true => "True"
  | SBool false => "False"
  | SInt z => pretty z
  | SStr s => s
  end.

Definition type_name (v : value) : string :=
  match v with
  | VNone => "NoneType"
  | VBool _ => "bool"
  | VInt _ => "int"
  | VStr _ => "str"
  | VDict _ => "dict"
  end.

(** [c.lower()] on one byte: only the ASCII capitals change.  On the bytes
    of UTF-8 text this agrees with Python wherever the outcome is compared
    with ASCII letters other than [i] and [k]. *)
Definition ascii_lower (c : ascii) : ascii :=
  let n := N_of_ascii c in
  if ((65 <=? n) && (n <=? 90))%N then ascii_of_N (n + 32) else c.

Fixpoint lower (s : string) : string :=
  match s with
  | EmptyString => EmptyString
  | String c t => String (ascii_lower c) (lower t)
  end.

(** [v.lower()]: an attribute of [str] only. *)
Definition call_lower (v : value) : result string :=
  match v with
  | VStr s => Returns (lower s)
  | _ => Raises (AttributeError (type_name v) "lower")
  end.

Fixpoint startswith (prefix s : string) : bool :=
  match prefix, s with
  | EmptyString, _ => true
  | String _ _, EmptyString => false
  | String a p, String b t => if Ascii.eqb a b then startswith p t else false
  end.

(** [needle in hay] on strings. *)
Fixpoint contains (needle hay : string) : bool :=
  startswith needle hay ||
  match hay with
  | EmptyString => false
  | String _ t => contains needle t
  end.

(** [sep.join(items)] *)
Definition join (sep : string) (items : list string) : string :=
  String.concat sep items.

(** [d.get(key, default)] *)
Definition get (d : gmap string value) (key : string) (dflt : value) : value :=
  default dflt (d !! key).

(** Reading a local variable that an earlier branch may have left
    unassigned. *)
Definition read_local {A} (name : string) (slot : option A) : result A :=
  match slot with
  | Some a => Returns a
  | None => Raises (UnboundLocalError name)
  end.

End Py.

Import Py.

(** ** The framework objects the handlers read and build *)

(** [request.method] and [request.url.path] of a request whose URL
    parses. *)
Record Request := {
  method : string;
  path : string
}.

(** A request as the catch-all handler may meet it.  [request.method] is a
    field of the connection.  [request.url.path] parses, on first use, the
    URL put together from the scheme, the [Host] header and the path; it
    keeps a parsed URL, and raises [ValueError] on every read when that URL
    does not parse. *)
Inductive Incoming :=
| Parsed (request : Request)
| Unparsed (method reason : string).

Coercion Parsed : Request >-> Incoming.

Definition request_method (incoming : Incoming) : string :=
  match incoming with
  | Parsed request => method request
  | Unparsed method _ => method
  end.

Definition request_url_path (incoming : Incoming) : result string :=
  match incoming with
  | Parsed request => Returns (path request)
  | Unparsed _ reason => Raises (ValueError reason)
  end.

(** [fastapi.HTTPException]: [exc.status_code] and [exc.detail]. *)
Record HTTPException := {
  exc_status_code : Z;
  exc_detail : value
}.

(** One segment of a validation error's location: a field name or an
    index. *)
Inductive loc_segment :=
| LocName (s : string)
| LocIndex (i : Z).

(** One entry of [exc.errors()]: the keys ["loc"] and ["msg"]. *)
Record FieldError := {
  loc : list loc_segment;
  msg : string
}.

(** [fastapi.exceptions.RequestValidationError]. *)
Record RequestValidationError := {
  errors : list FieldError
}.

(** Any other exception: whether it is an [h11.LocalProtocolError], and what
    [str(exc)] does (it runs the exception's own [__str__], which may
    raise). *)
Record PyException := {
  is_LocalProtocolError : bool;
  exc_str : result string
}.

(** A [JSONResponse] that was built: its status and the [content] it was
    given ([content=None] is a legal argument). *)
Record JSONResponse := {
  status_code : Z;
  content : option (gmap string value)
}.

(** [JSONResponse(status_code=...)] with no [content]: the constructor's
    first parameter, [content], has no default value, so the call raises
    before a response exists. *)
Definition missing_content : exn :=
  TypeError
    "JSONResponse.__init__() missing 1 required positional argument: 'content'".

Definition HTTP_401_UNAUTHORIZED : Z := 401.
Definition HTTP_403_FORBIDDEN : Z := 403.
Definition HTTP_422_UNPROCESSABLE_ENTITY : Z := 422.

(** ** [http_exception_handler] *)

(** Line 16: a mapping is kept, anything else is wrapped. *)
Definition normalized_detail (d : value) : gmap string value :=
  match d with
  | VDict m => m
  | VScalar c => {[ "error" := VStr "Error"; "message" := VStr (Py.str c) ]}
  end.

(** [detail["status"] = s; detail["code"] = s].  When [exc.detail] is a
    mapping the assignment changes that object too; the handler is the last
    reader of it. *)
Definition stamp (s : Z) (detail : gmap string value) : gmap string value :=
  <["code" := VInt s]> (<["status" := VInt s]> detail).

(** [{"timestamp": timestamp, "method": method, "path": path, **detail}]:
    the keys of [detail] win over the three literal ones. *)
Definition envelope (timestamp method path : string)
    (detail : gmap string value) : gmap string value :=
  detail ∪ {[ "timestamp" := VStr timestamp;
              "method" := VStr method;
              "path" := VStr path ]}.

(** [exc_value = str(exc)] is computed and not used: the calls that took it
    are commented out, and so is the local [alert]. *)
Definition http_exception_handler (now : string) (request : Request)
    (exc : HTTPException) : result JSONResponse :=
  let detail := normalized_detail (exc_detail exc) in
  let timestamp := now in
  let method := method request in
  let path := path request in
  let alert := Py.get detail "alert" (VBool false) in
  if exc_status_code exc =? 400 then
    let detail := stamp (exc_status_code exc) detail in
    Returns {| status_code := exc_status_code exc;
               content := Some (envelope timestamp method path detail) |}
  else if exc_status_code exc =? 401 then
    lowered ← Py.call_lower (Py.get detail "error" (VStr ""));
    let detail :=
      if Py.contains "autho" lowered then stamp 401 detail
      else stamp 402 detail in
    Returns {| status_code := HTTP_401_UNAUTHORIZED;
               content := Some (envelope timestamp method path detail) |}
  else if exc_status_code exc =? 403 then
    let detail := stamp 403 detail in
    let status_code := HTTP_403_FORBIDDEN in
    Raises missing_content
  else if exc_status_code exc =? 404 then
    let detail := stamp (exc_status_code exc) detail in
    Returns {| status_code := exc_status_code exc;
               content := Some (envelope timestamp method path detail) |}
  else
    let detail := stamp (exc_status_code exc) detail in
    Returns {| status_code := exc_status_code exc;
               content := Some (envelope timestamp method path detail) |}.

(** The body of lines 30, 42, 57 and 65 when [detail] was given status
    and code [z]. *)
Definition stamped_body (now : string) (request : Request)
    (exc : HTTPException) (z : Z) : gmap string value :=
  envelope now (method request) (path request)
           (stamp z (normalized_detail (exc_detail exc))).

(** ** [validation_exception_handler] *)

(** [str] of one location segment. *)
Definition str_segment (s : loc_segment) : string :=
  match s with
  | LocName n => n
  | LocIndex i => pretty i
  end.

(** [f"{'.'.join(map(str, error['loc'][1:]))}: {error['msg']}"] *)
Definition field_message (error : FieldError) : string :=
  Py.join "." (map str_segment (drop 1 (loc error))) +:+ ": " +:+ msg error.

Definition validation_exception_handler (now : string) (request : Request)
    (exc : RequestValidationError) : result JSONResponse :=
  let timestamp := now in
  let method := method request in
  let path := path request in
  let validation_errors := errors exc in
  let messages := Py.join " " (map field_message validation_errors) in
  Returns {| status_code := HTTP_422_UNPROCESSABLE_ENTITY;
             content := Some
               {[ "timestamp" := VStr timestamp;
                  "method" := VStr method;
                  "path" := VStr path;
                  "status" := VInt 422;
                  "code" := VInt 422;
                  "error" := VStr "Request Validation Error";
                  "message" := VStr messages ]} |}.

(** ** [general_exception_handler] *)

Definition internal_error_label : string :=
  "An internal server error occurred.".
Definition primary_message : string :=
  "알수없는 에러가 발생했습니다. 자세한 사항은 errorlog 참고".
Definition fallback_message : string :=
  "알수없는 에러가 발생했습니다. 자세한 사항은 채널톡으로 문의주세요.".

Definition error_envelope (timestamp method path : string) (status : Z)
    (error message : string) : gmap string value :=
  {[ "timestamp" := VStr timestamp;
     "method" := VStr method;
     "path" := VStr path;
     "status" := VInt status;
     "code" := VInt status;
     "error" := VStr error;
     "message" := VStr message ]}.

(** The body of the [try] block.  The locals [error] and [message] are
    assigned in the [else] branch only. *)
Definition general_try_block (now : string) (request : Incoming)
    (exc : PyException) : result JSONResponse :=
  exc_message ← exc_str exc;
  let locals : option string * option string :=
    if is_LocalProtocolError exc then (None, None)
    else (Some internal_error_label, Some primary_message) in
  let timestamp := now in
  let method := request_method request in
  path ← request_url_path request;
  error ← Py.read_local "error" (fst locals);
  message ← Py.read_local "message" (snd locals);
  let response_content :=
    error_envelope timestamp method path 500 error message in
  Returns {| status_code := 500; content := Some response_content |}.

(** The [except Exception] block: nothing protects it.  It prints the
    exception it caught, reads the clock again and reads the request
    again. *)
Definition general_except_block (now' : string) (request : Incoming)
    (internal_exc : exn) : result JSONResponse :=
  internal_exc_message ← Py.exn_str internal_exc;
  let timestamp := now' in
  let method := request_method request in
  path ← request_url_path request;
  let response_content :=
    error_envelope timestamp method path 500
      internal_error_label fallback_message in
  Returns {| status_code := 500; content := Some response_content |}.

Definition general_exception_handler (now now' : string) (request : Incoming)
    (exc : PyException) : result JSONResponse :=
  Py.try_except (general_try_block now request exc)
                (general_except_block now' request).

(** ** [add_exception_handlers]: one handler per exception class *)

Inductive Raised :=
| RaisedHTTP (exc : HTTPException)
| RaisedValidation (exc : RequestValidationError)
| RaisedOther (exc : PyException).

Definition add_exception_handlers (now now' : string) (request : Request)
    (raised : Raised) : result JSONResponse :=
  match raised with
  | RaisedHTTP exc => http_exception_handler now request exc
  | RaisedValidation exc => validation_exception_handler now request exc
  | RaisedOther exc => general_exception_handler now now' request exc
  end.

(** The seven fields of a full envelope. *)
Definition envelope_fields : gset string :=
  {[ "timestamp"; "method"; "path"; "status"; "code"; "error"; "message" ]}.

(** The [message] field a handler's answer carries, when it has a body with
    a string there. *)
Definition message_of (answer : result JSONResponse) : option string :=
  match answer with
  | Returns {| content := Some body |} =>
      match body !! "message" with
      | Some (VStr m) => Some m
      | _ => None
      end
  | _ => None
  end.

(** ** What the specification says, in its own words *)

(** "case-insensitively contains the substring": some slice of [s] equals
    [needle] once both are lower-cased. *)
Definition contains_ignoring_case (needle s : string) : Prop :=
  ∃ before slice after,
    s = before +:+ slice +:+ after ∧ Py.lower slice = Py.lower needle.

(** "location's first segment is dropped and the remaining segments are
    dot-joined". *)
Definition spec_field_path (location : list loc_segment) : string :=
  match tail location with
  | [] => ""
  | first :: others =>
      fold_left (λ acc seg, acc +:+ "." +:+ str_segment seg)
                others (str_segment first)
  end.

(** "<field.path>: <message>" *)
Definition spec_field_entry (error : FieldError) : string :=
  spec_field_path (loc error) +:+ ": " +:+ msg error.

(** "space-joins, over all per-field errors in order". *)
Definition spec_validation_message (errs : list FieldError) : string :=
  match errs with
  | [] => ""
  | first :: others =>
      fold_left (λ acc e, acc +:+ " " +:+ spec_field_entry e)
                others (spec_field_entry first)
  end.

(** ** Sample inputs *)

Definition sample_now : string := "2024-05-01T09:30:00.000000".

Definition sample_request : Request :=
  {| method := "POST"; path := "/api/v1/recruit" |}.

Definition unauthorized_other : HTTPException :=
  {| exc_status_code := 401;
     exc_detail := VDict {[ "error" := VStr "Something else";
                            "message" := VStr "denied" ]} |}.

Definition unauthorized_token : HTTPException :=
  {| exc_status_code := 401;
     exc_detail := VDict {[ "error" := VStr "Missing Authorization header";
                            "message" := VStr "denied" ]} |}.

Definition bad_request_alert : HTTPException :=
  {| exc_status_code := 400;
     exc_detail := VDict {[ "error" := VStr "Bad Request";
                            "message" := VStr "invalid payload";
                            "alert" := VBool true ]} |}.

Definition forbidden_plain : HTTPException :=
  {| exc_status_code := 403; exc_detail := VStr "Forbidden" |}.

Definition not_found_plain : HTTPException :=
  {| exc_status_code := 404; exc_detail := VStr "Not Found" |}.

Definition two_field_errors : RequestValidationError :=
  {| errors :=
       [ {| loc := [LocName "body"; LocName "name"]; msg := "required" |};
         {| loc := [LocName "body"; LocName "age"];
            msg := "must be integer" |} ] |}.

Definition client_disconnect : PyException :=
  {| is_LocalProtocolError := true;
     exc_str := Returns "Can't send data when our state is ERROR" |}.

Definition unauthorized_null_error : HTTPException :=
  {| exc_status_code := 401;
     exc_detail := VDict {[ "error" := VNone; "message" := VStr "denied" ]} |}.

Definition unauthorized_plain : HTTPException :=
  {| exc_status_code := 401; exc_detail := VStr "Not authorized" |}.

Definition server_error_override : HTTPException :=
  {| exc_status_code := 500;
     exc_detail := VDict {[ "error" := VStr "Upstream";
                            "path" := VStr "/hidden";
                            "status" := VStr "stale" ]} |}.

Definition name_error : FieldError :=
  {| loc := [LocName "body"; LocName "name"]; msg := "required" |}.

Definition item_error : FieldError :=
  {| loc := [LocName "body"; LocName "items"; LocIndex 0; LocName "age"];
     msg := "must be integer" |}.

Definition key_error : PyException :=
  {| is_LocalProtocolError := false; exc_str := Returns "'user_id'" |}.

Definition value_error : PyException :=
  {| is_LocalProtocolError := false;
     exc_str := Returns "invalid literal for int()" |}.



(** ** Strings *)

Section strings.
Implicit Types (s t u : string) (a : ascii).

Lemma app_nil_l s : "" +:+ s = s.
Proof. reflexivity. Qed.

Lemma app_cons a s t : String a s +:+ t = String a (s +:+ t).
Proof. reflexivity. Qed.

Lemma app_nil_r s : s +:+ "" = s.
Proof. induction s as [|a s IH]; [done|]. by rewrite app_cons, IH. Qed.

Lemma app_assoc s t u : (s +:+ t) +:+ u = s +:+ t +:+ u.
Proof.
  induction s as [|a s IH]; [done|]. by rewrite !app_cons, IH.
Qed.

Lemma lower_app s t : Py.lower (s +:+ t) = Py.lower s +:+ Py.lower t.
Proof.
  induction s as [|a s IH]; [done|].
  rewrite app_cons. simpl. by rewrite IH.
Qed.

(** A split of the lower-cased text is the image of a split of the
    text. *)
Lemma lower_app_inv s t u :
  Py.lower s = t +:+ u →
  ∃ s1 s2, s = s1 +:+ s2 ∧ Py.lower s1 = t ∧ Py.lower s2 = u.
Proof.
  revert s. induction t as [|a t IH]; intros s H.
  - exists "", s. by rewrite !app_nil_l in *.
  - destruct s as [|b s]; [done|].
    rewrite app_cons in H. simpl in H. injection H as Hb Hs.
    destruct (IH _ Hs) as (s1 & s2 & -> & <- & <-).
    exists (String b s1), s2. by rewrite app_cons, <- Hb.
Qed.

Lemma startswith_spec s t :
  Py.startswith s t = true ↔ ∃ u, t = s +:+ u.
Proof.
  revert t. induction s as [|a s IH]; intros t; simpl.
  - split; [intros _; by exists t | done].
  - destruct t as [|b t].
    + split; [done | by intros [u Hu]].
    + destruct (Ascii.eqb_spec a b) as [->|Hne].
      * rewrite IH. split; intros [u Hu]; exists u.
        -- by rewrite app_cons, Hu.
        -- rewrite app_cons in Hu. by injection Hu.
      * split; [done | intros [u Hu]].
        rewrite app_cons in Hu. injection Hu as ??. congruence.
Qed.

(** [needle in hay] holds exactly when [hay] has [needle] as a slice. *)
Lemma contains_spec s t :
  Py.contains s t = true ↔ ∃ before after, t = before +:+ s +:+ after.
Proof.
  induction t as [|b t IH]; simpl; rewrite orb_true_iff, startswith_spec.
  - split.
    + intros [[u Hu]|?]; [|done]. by exists "", u.
    + intros ([|c before] & after & H); [left; by exists after | done].
  - rewrite IH. split.
    + intros [[u Hu]|(before & after & ->)].
      * by exists "", u.
      * by exists (String b before), after.
    + intros ([|c before] & after & H).
      * left. by exists after.
      * right. rewrite app_cons in H. injection H as _ ->. eauto.
Qed.

(** The test of line 34 decides the specification's notion. *)
Lemma contains_lower_spec needle s :
  Py.contains (Py.lower needle) (Py.lower s) = true
  ↔ contains_ignoring_case needle s.
Proof.
  rewrite contains_spec. split.
  - intros (before & after & H).
    apply lower_app_inv in H as (s1 & s23 & -> & <- & H).
    apply lower_app_inv in H as (s2 & s3 & -> & H & <-).
    by exists s1, s2, s3.
  - intros (before & slice & after & -> & H).
    exists (Py.lower before), (Py.lower after).
    by rewrite !lower_app, H.
Qed.

Lemma fold_left_join {A} (f : A → string) sep (items : list A) first :
  fold_left (λ acc x, acc +:+ sep +:+ f x) items first
  = Py.join sep (first :: map f items).
Proof.
  revert first. induction items as [|x items IH]; intros first; [done|].
  simpl fold_left. rewrite IH. unfold Py.join.
  destruct items as [|y items]; [done|]. simpl map.
  change (String.concat sep (?h :: ?y :: ?l))
    with (h +:+ sep +:+ String.concat sep (y :: l)).
  by rewrite !app_assoc.
Qed.

End strings.

(** ** Dictionaries of the envelope *)

Section envelopes.
Implicit Types (d : gmap string value) (k : string) (z : Z).

Lemma stamp_status z d : stamp z d !! "status" = Some (VInt z).
Proof. unfold stamp. by rewrite lookup_insert_ne, lookup_insert_eq. Qed.

Lemma stamp_code z d : stamp z d !! "code" = Some (VInt z).
Proof. unfold stamp. by rewrite lookup_insert_eq. Qed.

Lemma stamp_other z d k :
  k ≠ "status" → k ≠ "code" → stamp z d !! k = d !! k.
Proof. intros ??. unfold stamp. by rewrite !lookup_insert_ne. Qed.

Lemma dom_stamp z d : dom (stamp z d) = {[ "status"; "code" ]} ∪ dom d.
Proof. unfold stamp. rewrite !dom_insert_L. set_solver. Qed.

(** A key of [detail] reaches the body with the value [detail] gives it. *)
Lemma envelope_detail t m p d k v :
  d !! k = Some v → envelope t m p d !! k = Some v.
Proof. intros H. unfold envelope. by apply lookup_union_Some_l. Qed.

Lemma dom_envelope t m p d :
  dom (envelope t m p d) = {[ "timestamp"; "method"; "path" ]} ∪ dom d.
Proof.
  unfold envelope. rewrite dom_union_L, !dom_insert_L, dom_singleton_L.
  set_solver.
Qed.

Lemma dom_error_envelope t m p z e msg :
  dom (error_envelope t m p z e msg) = envelope_fields.
Proof. reflexivity. Qed.

Lemma normalized_plain c :
  normalized_detail (VScalar c)
  = {[ "error" := VStr "Error"; "message" := VStr (Py.str c) ]}.
Proof. reflexivity. Qed.

Lemma call_lower_inv (v : value) lowered :
  Py.call_lower v = Returns lowered ↔
  ∃ text, v = VStr text ∧ lowered = Py.lower text.
Proof.
  split.
  - destruct v as [[| | |text]|]; simpl; intros H; try discriminate.
    injection H as <-. by exists text.
  - by intros (text & -> & ->).
Qed.

End envelopes.

(** ** The branches of [http_exception_handler] *)

Section http_branches.
Variables (now : string) (request : Request) (exc : HTTPException).

Implicit Types (r : JSONResponse) (body : gmap string value).

(** Lines 24-31 and 51-66: the status is echoed. *)
Lemma http_echo_branch :
  exc_status_code exc ≠ 401 → exc_status_code exc ≠ 403 →
  http_exception_handler now request exc
  = Returns {| status_code := exc_status_code exc;
               content := Some (stamped_body now request exc
                               (exc_status_code exc)) |}.
Proof.
  intros H1 H3. unfold http_exception_handler.
  destruct (Z.eqb_spec (exc_status_code exc) 400); [done|].
  destruct (Z.eqb_spec (exc_status_code exc) 401); [done|].
  destruct (Z.eqb_spec (exc_status_code exc) 403); [done|].
  by destruct (Z.eqb_spec (exc_status_code exc) 404).
Qed.

(** Lines 33-43. *)
Lemma http_401_branch :
  exc_status_code exc = 401 →
  http_exception_handler now request exc
  = (lowered ← Py.call_lower
                 (Py.get (normalized_detail (exc_detail exc)) "error"
                         (VStr ""));
     Returns {| status_code := 401;
                content := Some (stamped_body now request exc
                  (if Py.contains "autho" lowered then 401 else 402)) |}).
Proof.
  intros H. unfold http_exception_handler. rewrite H. simpl.
  destruct (Py.call_lower _) as [lowered|e]; [|done].
  simpl. unfold stamped_body. by destruct (Py.contains _ _).
Qed.

(** Lines 44-50: the response is never built. *)
Lemma http_403_branch :
  exc_status_code exc = 403 →
  http_exception_handler now request exc = Raises missing_content.
Proof. intros H. unfold http_exception_handler. by rewrite H. Qed.

(** Every body the handler sends is the stamped detail under the three
    request fields, and the stamp is the status of the response unless
    line 38 chose 402. *)
Lemma http_response_inv r body :
  http_exception_handler now request exc = Returns r →
  content r = Some body →
  ∃ z, body = stamped_body now request exc z ∧
    (z = status_code r
     ∨ (z = 402 ∧ status_code r = 401 ∧ exc_status_code exc = 401
        ∧ ∃ text, Py.get (normalized_detail (exc_detail exc)) "error"
                    (VStr "") = VStr text
                  ∧ ¬ contains_ignoring_case "autho" text)).
Proof.
  intros Hr Hbody.
  destruct (decide (exc_status_code exc = 403)) as [H3|H3].
  { rewrite http_403_branch in Hr by done. discriminate. }
  destruct (decide (exc_status_code exc = 401)) as [H1|H1].
  - rewrite http_401_branch in Hr by done.
    destruct (Py.call_lower _) as [lowered|e] eqn:Hlow; [|done].
    apply call_lower_inv in Hlow as (text & Htext & ->).
    simpl in Hr. injection Hr as <-. simpl in Hbody. injection Hbody as <-.
    destruct (Py.contains "autho" (Py.lower text)) eqn:Hc.
    + exists 401. by split; [|left].
    + exists 402. split; [done|right]. repeat split; try done.
      exists text. split; [done|].
      intros Hci. apply (contains_lower_spec "autho") in Hci.
      change (Py.lower "autho") with "autho" in Hci. congruence.
  - rewrite http_echo_branch in Hr by done.
    injection Hr as <-. simpl in Hbody. injection Hbody as <-.
    exists (exc_status_code exc). by split; [|left].
Qed.

End http_branches.

(** ** The explicit HTTP error handler *)

Example lower_folds_ascii_capitals_only :
  Py.lower "AUTHO Z@[`{ az" = "autho z@[`{ az".
Proof. reflexivity. Qed.

Example unauthorized_token_body :
  http_exception_handler sample_now sample_request unauthorized_token
  = Returns {| status_code := 401;
               content := Some {[ "timestamp" := VStr sample_now;
                                  "method" := VStr "POST";
                                  "path" := VStr "/api/v1/recruit";
                                  "error" := VStr "Missing Authorization header";
                                  "message" := VStr "denied";
                                  "status" := VInt 401;
                                  "code" := VInt 401 ]} |}.
Proof. reflexivity. Qed.

Example unauthorized_other_body :
  http_exception_handler sample_now sample_request unauthorized_other
  = Returns {| status_code := 401;
               content := Some {[ "timestamp" := VStr sample_now;
                                  "method" := VStr "POST";
                                  "path" := VStr "/api/v1/recruit";
                                  "error" := VStr "Something else";
                                  "message" := VStr "denied";
                                  "status" := VInt 402;
                                  "code" := VInt 402 ]} |}.
Proof. reflexivity. Qed.

(** An [error] field that is not a string stops the 401 branch at
    [.lower()]. *)
Example unauthorized_error_none_raises :
  http_exception_handler sample_now sample_request
    {| exc_status_code := 401;
       exc_detail := VDict {[ "error" := VNone ]} |}
  = Raises (AttributeError "NoneType" "lower").
Proof. reflexivity. Qed.

(** C1, as stated, fails: a 401 error whose [error] field is
    "Something else" is answered with HTTP status 401, not 402. *)
Lemma unauthorized_other_keeps_http_401 :
  ¬ contains_ignoring_case "autho" "Something else"
  ∧ ∃ r, http_exception_handler sample_now sample_request unauthorized_other
         = Returns r
         ∧ status_code r = 401 ∧ status_code r ≠ 402.
Proof.
  split.
  - intros H. by apply (contains_lower_spec "autho") in H.
  - eexists. split; [reflexivity|]. by split.
Qed.

(** C1 (amended).  For every HTTP error carrying status 401 whose detail
    has no [error] field or a string there, the response has HTTP status 401
    and a body whose [status] and [code] fields are both 401 when the
    [error] text contains "autho" ignoring case, and both 402 otherwise. *)
Theorem unauthorized_remap now request exc text :
  exc_status_code exc = 401 →
  Py.get (normalized_detail (exc_detail exc)) "error" (VStr "") = VStr text →
  ∃ body,
    http_exception_handler now request exc
    = Returns {| status_code := 401; content := Some body |}
    ∧ (contains_ignoring_case "autho" text →
       body !! "status" = Some (VInt 401) ∧ body !! "code" = Some (VInt 401))
    ∧ (¬ contains_ignoring_case "autho" text →
       body !! "status" = Some (VInt 402) ∧ body !! "code" = Some (VInt 402)).
Proof.
  intros H401 Herr. rewrite http_401_branch, Herr by done. simpl.
  eexists. split; [reflexivity|].
  pose proof (contains_lower_spec "autho" text) as Hspec.
  change (Py.lower "autho") with "autho" in Hspec.
  destruct (Py.contains "autho" (Py.lower text)).
  - split; [intros _ | intros Hn; destruct Hn; by apply Hspec].
    split; apply envelope_detail; [apply stamp_status | apply stamp_code].
  - split; [intros Hc; apply Hspec in Hc; discriminate | intros _].
    split; apply envelope_detail; [apply stamp_status | apply stamp_code].
Qed.

Lemma unauthorized_remap_witness :
  exc_status_code unauthorized_token = 401
  ∧ Py.get (normalized_detail (exc_detail unauthorized_token)) "error" (VStr "")
    = VStr "Missing Authorization header"
  ∧ ∃ body,
      http_exception_handler sample_now sample_request unauthorized_token
      = Returns {| status_code := 401; content := Some body |}
      ∧ (contains_ignoring_case "autho" "Missing Authorization header" →
         body !! "status" = Some (VInt 401) ∧ body !! "code" = Some (VInt 401))
      ∧ (¬ contains_ignoring_case "autho" "Missing Authorization header" →
         body !! "status" = Some (VInt 402) ∧ body !! "code" = Some (VInt 402)).
Proof.
  split; [reflexivity|]. split; [reflexivity|].
  apply (unauthorized_remap sample_now sample_request unauthorized_token
           "Missing Authorization header"); reflexivity.
Defined.

(** C5, on the code: for every HTTP error carrying status 403 the handler
    builds no response.  Lines 47-50 call [JSONResponse] without its
    [content] argument (line 49 is commented out), the call raises
    [TypeError], and the handler raises instead of answering 403. *)
Theorem forbidden_raises_type_error now request exc :
  exc_status_code exc = 403 →
  http_exception_handler now request exc = Raises missing_content
  ∧ ∀ r, http_exception_handler now request exc ≠ Returns r.
Proof.
  intros H. rewrite http_403_branch by done. by split.
Qed.

Lemma forbidden_raises_type_error_witness :
  exc_status_code forbidden_plain = 403
  ∧ http_exception_handler sample_now sample_request forbidden_plain
    = Raises missing_content
  ∧ ∀ r, http_exception_handler sample_now sample_request forbidden_plain
         ≠ Returns r.
Proof.
  split; [reflexivity|].
  apply (forbidden_raises_type_error sample_now sample_request
           forbidden_plain).
  reflexivity.
Defined.

(** C7.  For every HTTP error whose status is neither 401 nor 403 (so 400,
    404, 500 and every other code) the response status is the status of the
    error, the body's [status] and [code] are that status too, and the
    detail payload is echoed: every other key of a detail mapping is in the
    body with its value, and a detail that is not a mapping is in the body
    as its text, under [message]. *)
Theorem echoed_status_and_detail now request exc :
  exc_status_code exc ≠ 401 → exc_status_code exc ≠ 403 →
  ∃ body,
    http_exception_handler now request exc
    = Returns {| status_code := exc_status_code exc; content := Some body |}
    ∧ body !! "status" = Some (VInt (exc_status_code exc))
    ∧ body !! "code" = Some (VInt (exc_status_code exc))
    ∧ (∀ m k v, exc_detail exc = VDict m →
                k ≠ "status" → k ≠ "code" →
                m !! k = Some v → body !! k = Some v)
    ∧ (∀ c, exc_detail exc = VScalar c →
            body !! "error" = Some (VStr "Error")
            ∧ body !! "message" = Some (VStr (Py.str c))).
Proof.
  intros H1 H3. rewrite http_echo_branch by done.
  eexists. split; [reflexivity|]. unfold stamped_body.
  split; [|split; [|split]].
  - apply envelope_detail, stamp_status.
  - apply envelope_detail, stamp_code.
  - intros m k v Hm Hs Hc Hk. apply envelope_detail.
    rewrite stamp_other, Hm by done. exact Hk.
  - intros c Hc. rewrite Hc.
    split; apply envelope_detail; by rewrite stamp_other.
Qed.

Lemma echoed_status_and_detail_witness :
  exc_status_code bad_request_alert ≠ 401
  ∧ exc_status_code bad_request_alert ≠ 403
  ∧ ∃ body,
      http_exception_handler sample_now sample_request bad_request_alert
      = Returns {| status_code := 400; content := Some body |}
      ∧ body !! "status" = Some (VInt 400)
      ∧ body !! "code" = Some (VInt 400)
      ∧ body !! "error" = Some (VStr "Bad Request")
      ∧ body !! "message" = Some (VStr "invalid payload")
      ∧ body !! "alert" = Some (VBool true).
Proof.
  split; [discriminate|]. split; [discriminate|].
  destruct (echoed_status_and_detail sample_now sample_request
              bad_request_alert)
    as (body & Hr & Hs & Hc & Hm & _); [discriminate..|].
  exists body. split; [exact Hr|]. split; [exact Hs|]. split; [exact Hc|].
  repeat split; (eapply Hm; [reflexivity|discriminate|discriminate|]);
    reflexivity.
Defined.

(** C9.  A detail payload that is not a mapping is normalised to the
    mapping with [error] = "Error" and [message] = [str(detail)], and for
    every status other than 403 the body built from it carries these two
    fields; for a plain string the message is the string itself. *)
Theorem plain_detail_envelope now request exc c :
  exc_detail exc = VScalar c →
  exc_status_code exc ≠ 403 →
  normalized_detail (exc_detail exc)
  = {[ "error" := VStr "Error"; "message" := VStr (Py.str c) ]}
  ∧ (∀ s, c = SStr s → Py.str c = s)
  ∧ ∃ r body,
      http_exception_handler now request exc = Returns r
      ∧ content r = Some body
      ∧ body !! "error" = Some (VStr "Error")
      ∧ body !! "message" = Some (VStr (Py.str c)).
Proof.
  intros Hd H3. split; [by rewrite Hd|]. split; [by intros s ->|].
  assert (∀ z, stamped_body now request exc z !! "error" = Some (VStr "Error")
               ∧ stamped_body now request exc z !! "message"
                 = Some (VStr (Py.str c))) as Hbody.
  { intros z. unfold stamped_body. rewrite Hd.
    split; apply envelope_detail; by rewrite stamp_other. }
  destruct (decide (exc_status_code exc = 401)) as [H1|H1].
  - rewrite http_401_branch, Hd by done. simpl.
    do 2 eexists. split; [reflexivity|]. split; [reflexivity|]. apply Hbody.
  - rewrite http_echo_branch by done.
    do 2 eexists. split; [reflexivity|]. split; [reflexivity|]. apply Hbody.
Qed.

Lemma plain_detail_envelope_witness :
  exc_detail not_found_plain = VStr "Not Found"
  ∧ exc_status_code not_found_plain ≠ 403
  ∧ normalized_detail (exc_detail not_found_plain)
    = {[ "error" := VStr "Error"; "message" := VStr "Not Found" ]}
  ∧ (∀ s, SStr "Not Found" = SStr s → Py.str (SStr "Not Found") = s)
  ∧ ∃ r body,
      http_exception_handler sample_now sample_request not_found_plain
      = Returns r
      ∧ content r = Some body
      ∧ body !! "error" = Some (VStr "Error")
      ∧ body !! "message" = Some (VStr "Not Found").
Proof.
  split; [reflexivity|]. split; [discriminate|].
  apply (plain_detail_envelope sample_now sample_request not_found_plain
           (SStr "Not Found")); [reflexivity | discriminate].
Defined.

(** ** The validation handler *)

Lemma field_message_spec error : field_message error = spec_field_entry error.
Proof.
  unfold field_message, spec_field_entry, spec_field_path.
  destruct (loc error) as [|dropped [|first others]]; [done..|].
  simpl tail. simpl drop. cbv iota. by rewrite (fold_left_join str_segment).
Qed.

Lemma validation_message_spec errs :
  Py.join " " (map field_message errs) = spec_validation_message errs.
Proof.
  destruct errs as [|first others]; [done|].
  unfold spec_validation_message.
  rewrite (fold_left_join spec_field_entry). simpl map.
  rewrite field_message_spec. do 2 f_equal.
  apply map_ext, field_message_spec.
Qed.

(** C6.  Every request-validation failure is answered with status 422,
    the label "Request Validation Error", and the message that joins with
    single spaces, in order, one "<field.path>: <message>" per field error,
    the path being the location without its first segment, joined with
    dots.  The two errors of the specification's example give
    "name: required age: must be integer". *)
Theorem validation_response now request exc :
  (∃ body,
     validation_exception_handler now request exc
     = Returns {| status_code := 422; content := Some body |}
     ∧ body !! "status" = Some (VInt 422)
     ∧ body !! "code" = Some (VInt 422)
     ∧ body !! "error" = Some (VStr "Request Validation Error")
     ∧ body !! "message"
       = Some (VStr (spec_validation_message (errors exc))))
  ∧ ∃ body,
      validation_exception_handler now request two_field_errors
      = Returns {| status_code := 422; content := Some body |}
      ∧ body !! "message"
        = Some (VStr "name: required age: must be integer").
Proof.
  split.
  - eexists. split; [reflexivity|].
    rewrite <- validation_message_spec. by repeat split.
  - eexists. by split.
Qed.

(** ** The catch-all handler *)

Lemma fallback_differs : fallback_message ≠ primary_message.
Proof. discriminate. Qed.

(** The [try] block returns the primary envelope or raises. *)
Lemma general_try_block_cases now (request : Request) exc :
  general_try_block now request exc
  = Returns {| status_code := 500;
               content := Some (error_envelope now (method request)
                                  (path request) 500
                                  internal_error_label primary_message) |}
  ∨ ∃ e, general_try_block now request exc = Raises e.
Proof.
  unfold general_try_block.
  destruct (exc_str exc) as [text|e]; [|right; by exists e].
  destruct (is_LocalProtocolError exc); [right; by eexists | by left].
Qed.

(** An exception that is not a [LocalProtocolError], with a working
    [str], gets the primary envelope. *)
Lemma ordinary_exception_gets_primary now now' (request : Request) exc text :
  is_LocalProtocolError exc = false → exc_str exc = Returns text →
  general_exception_handler now now' request exc
  = Returns {| status_code := 500;
               content := Some (error_envelope now (method request)
                                  (path request) 500
                                  internal_error_label primary_message) |}.
Proof.
  intros Hl Hs. unfold general_exception_handler, general_try_block.
  by rewrite Hs, Hl.
Qed.

(** Whatever the handler returns is one of the two envelopes. *)
Lemma general_handler_returns_inv now now' (request : Incoming) exc r :
  general_exception_handler now now' request exc = Returns r →
  ∃ timestamp path message,
    r = {| status_code := 500;
           content := Some (error_envelope timestamp (request_method request)
                              path 500 internal_error_label message) |}
    ∧ (message = primary_message ∨ message = fallback_message).
Proof.
  unfold general_exception_handler, general_try_block, general_except_block.
  destruct (exc_str exc) as [text|e]; simpl.
  - destruct request as [request|method reason]; simpl; [|discriminate].
    destruct (is_LocalProtocolError exc); simpl; intros [= <-];
      do 3 eexists; (split; [reflexivity|]); first [by left | by right].
  - destruct (Py.exn_str e) as [text|e']; simpl; [|discriminate].
    destruct request as [request|method reason]; simpl; [|discriminate].
    intros [= <-]. do 3 eexists. split; [reflexivity|]. by right.
Qed.

(** C2, on the code: for a [LocalProtocolError] the locals [error] and
    [message] are never assigned, building the primary envelope raises
    [UnboundLocalError], and the answer is the fallback envelope, whose
    message is not the one every other exception gets. *)
Theorem local_protocol_error_gets_fallback
    now now' (request : Request) exc text :
  is_LocalProtocolError exc = true → exc_str exc = Returns text →
  general_try_block now request exc = Raises (UnboundLocalError "error")
  ∧ ∃ body,
      general_exception_handler now now' request exc
      = Returns {| status_code := 500; content := Some body |}
      ∧ body !! "error" = Some (VStr internal_error_label)
      ∧ body !! "message" = Some (VStr fallback_message)
      ∧ body !! "message" ≠ Some (VStr primary_message).
Proof.
  intros Hl Hs.
  assert (general_try_block now request exc
          = Raises (UnboundLocalError "error")) as Htry.
  { unfold general_try_block. by rewrite Hs, Hl. }
  split; [done|]. unfold general_exception_handler. rewrite Htry.
  eexists. split; [reflexivity|]. by repeat split.
Qed.

Lemma local_protocol_error_gets_fallback_witness :
  is_LocalProtocolError client_disconnect = true
  ∧ exc_str client_disconnect
    = Returns "Can't send data when our state is ERROR"
  ∧ general_try_block sample_now sample_request client_disconnect
    = Raises (UnboundLocalError "error")
  ∧ ∃ body,
      general_exception_handler sample_now sample_now sample_request
        client_disconnect
      = Returns {| status_code := 500; content := Some body |}
      ∧ body !! "error" = Some (VStr internal_error_label)
      ∧ body !! "message" = Some (VStr fallback_message)
      ∧ body !! "message" ≠ Some (VStr primary_message).
Proof.
  split; [reflexivity|]. split; [reflexivity|].
  apply (local_protocol_error_gets_fallback sample_now sample_now
           sample_request client_disconnect
           "Can't send data when our state is ERROR"); reflexivity.
Defined.




(** ** Every response of the normaliser *)

(** C3, as stated, fails: a 400 error whose detail mapping carries
    [alert] is answered with a body that has an [alert] field, so the body
    does not have exactly the seven fields. *)
Lemma alert_flag_is_emitted :
  ∃ r body,
    add_exception_handlers sample_now sample_now sample_request
      (RaisedHTTP bad_request_alert) = Returns r
    ∧ content r = Some body
    ∧ body !! "alert" = Some (VBool true)
    ∧ dom body ≠ envelope_fields.
Proof.
  do 2 eexists. split; [reflexivity|]. split; [reflexivity|].
  split; [reflexivity|].
  intros H. assert ("alert" ∈ envelope_fields) as Hin.
  { rewrite <- H. apply elem_of_dom. by eexists. }
  unfold envelope_fields in Hin. set_solver.
Qed.

(** C3 (amended).  A body sent by the validation handler or by the
    catch-all handler has exactly the seven fields.  A body sent by the
    HTTP error handler has the fields timestamp, method, path, status and
    code together with every key of the detail mapping: exactly the seven
    fields when the detail is not a mapping, and an [alert] key of the
    detail mapping is sent in the body with its value. *)
Theorem response_fields now now' request raised r body :
  add_exception_handlers now now' request raised = Returns r →
  content r = Some body →
  match raised with
  | RaisedHTTP exc =>
      dom body = {[ "timestamp"; "method"; "path"; "status"; "code" ]}
                 ∪ dom (normalized_detail (exc_detail exc))
      ∧ (∀ c, exc_detail exc = VScalar c → dom body = envelope_fields)
      ∧ (∀ v, normalized_detail (exc_detail exc) !! "alert" = Some v →
              body !! "alert" = Some v)
  | RaisedValidation _ | RaisedOther _ => dom body = envelope_fields
  end.
Proof.
  intros Hr Hbody. destruct raised as [exc|exc|exc]; simpl in Hr.
  - destruct (http_response_inv _ _ _ _ _ Hr Hbody) as (z & -> & _).
    unfold stamped_body.
    assert (dom (envelope now (method request) (path request)
                   (stamp z (normalized_detail (exc_detail exc))))
            = {[ "timestamp"; "method"; "path"; "status"; "code" ]}
              ∪ dom (normalized_detail (exc_detail exc))) as Hdom.
    { rewrite dom_envelope, dom_stamp. set_solver. }
    split; [done|]. split.
    + intros c Hc. rewrite Hdom, Hc, normalized_plain.
      rewrite dom_insert_L, dom_singleton_L. unfold envelope_fields.
      set_solver.
    + intros v Hv. apply envelope_detail. by rewrite stamp_other.
  - injection Hr as <-. simpl in Hbody. by injection Hbody as <-.
  - destruct (general_handler_returns_inv _ _ _ _ _ Hr)
      as (t & p & m & -> & _).
    simpl in Hbody. by injection Hbody as <-.
Qed.

Lemma response_fields_witness :
  add_exception_handlers sample_now sample_now sample_request
    (RaisedHTTP bad_request_alert)
  = Returns {| status_code := 400;
               content := Some (stamped_body sample_now sample_request
                                  bad_request_alert 400) |}
  ∧ Some (stamped_body sample_now sample_request bad_request_alert 400)
    = Some (stamped_body sample_now sample_request bad_request_alert 400)
  ∧ dom (stamped_body sample_now sample_request bad_request_alert 400)
    = {[ "timestamp"; "method"; "path"; "status"; "code" ]}
      ∪ dom (normalized_detail (exc_detail bad_request_alert))
  ∧ (∀ c, exc_detail bad_request_alert = VScalar c →
          dom (stamped_body sample_now sample_request bad_request_alert 400)
          = envelope_fields)
  ∧ (∀ v, normalized_detail (exc_detail bad_request_alert) !! "alert" = Some v →
          stamped_body sample_now sample_request bad_request_alert 400
            !! "alert" = Some v).
Proof.
  split; [reflexivity|]. split; [reflexivity|].
  apply (response_fields sample_now sample_now sample_request
           (RaisedHTTP bad_request_alert)
           {| status_code := 400;
              content := Some (stamped_body sample_now sample_request
                                 bad_request_alert 400) |});
    reflexivity.
Defined.

(** C4, as stated, fails outside the 403 case too: a 401 error whose
    [error] field is "Something else" is answered with HTTP status 401 and
    a body whose [status] and [code] are 402. *)
Lemma unauthorized_other_status_mismatch :
  ∃ r body,
    add_exception_handlers sample_now sample_now sample_request
      (RaisedHTTP unauthorized_other) = Returns r
    ∧ content r = Some body
    ∧ status_code r = 401
    ∧ body !! "status" = Some (VInt 402)
    ∧ body !! "code" = Some (VInt 402)
    ∧ body !! "status" ≠ Some (VInt (status_code r)).
Proof.
  do 2 eexists. split; [reflexivity|]. split; [reflexivity|].
  by repeat split.
Qed.

(** C4 (amended).  Every body sent by the normaliser has [status] and
    [code] fields equal to each other, and they equal the HTTP status of
    the response except for a 401 error whose [error] text does not contain
    "autho" ignoring case: there the HTTP status is 401 and both fields are
    402.  (A 403 error is sent no body.) *)
Theorem body_status_matches_response now now' request raised r body :
  add_exception_handlers now now' request raised = Returns r →
  content r = Some body →
  ∃ z,
    body !! "status" = Some (VInt z) ∧ body !! "code" = Some (VInt z)
    ∧ (z = status_code r
       ∨ (z = 402 ∧ status_code r = 401
          ∧ ∃ exc text,
              raised = RaisedHTTP exc ∧ exc_status_code exc = 401
              ∧ Py.get (normalized_detail (exc_detail exc)) "error" (VStr "")
                = VStr text
              ∧ ¬ contains_ignoring_case "autho" text)).
Proof.
  intros Hr Hbody. destruct raised as [exc|exc|exc]; simpl in Hr.
  - destruct (http_response_inv _ _ _ _ _ Hr Hbody) as (z & -> & Hz).
    exists z. unfold stamped_body.
    split; [apply envelope_detail, stamp_status|].
    split; [apply envelope_detail, stamp_code|].
    destruct Hz as [->|(-> & H401 & Hexc & text & Htext & Hno)]; [by left|].
    right. repeat split; try done. by exists exc, text.
  - injection Hr as <-. simpl in Hbody. injection Hbody as <-.
    exists 422. by repeat split; try left.
  - destruct (general_handler_returns_inv _ _ _ _ _ Hr)
      as (t & p & m & -> & _).
    simpl in Hbody. injection Hbody as <-.
    exists 500. by repeat split; try left.
Qed.

Lemma body_status_matches_response_witness :
  add_exception_handlers sample_now sample_now sample_request
    (RaisedValidation two_field_errors)
  = validation_exception_handler sample_now sample_request two_field_errors
  ∧ ∃ z,
      error_envelope sample_now "POST" "/api/v1/recruit" 422
        "Request Validation Error" "name: required age: must be integer"
        !! "status" = Some (VInt z)
      ∧ error_envelope sample_now "POST" "/api/v1/recruit" 422
          "Request Validation Error" "name: required age: must be integer"
          !! "code" = Some (VInt z)
      ∧ (z = 422
         ∨ (z = 402 ∧ 422 = 401
            ∧ ∃ exc text,
                RaisedValidation two_field_errors = RaisedHTTP exc
                ∧ exc_status_code exc = 401
                ∧ Py.get (normalized_detail (exc_detail exc)) "error"
                    (VStr "") = VStr text
                ∧ ¬ contains_ignoring_case "autho" text)).
Proof.
  split; [reflexivity|].
  apply (body_status_matches_response sample_now sample_now sample_request
           (RaisedValidation two_field_errors)
           {| status_code := 422;
              content := Some (error_envelope sample_now "POST"
                                 "/api/v1/recruit" 422
                                 "Request Validation Error"
                                 "name: required age: must be integer") |});
    reflexivity.
Defined.

(** ** Further properties of the handlers *)

Section http_answers.
Variables (now : string) (request : Request) (exc : HTTPException).
Implicit Types (r : JSONResponse) (body : gmap string value).

(** A response the handler returns keeps the status of the error and has
    a body, and the error is not a 403. *)
Lemma http_answer_inv r :
  http_exception_handler now request exc = Returns r →
  status_code r = exc_status_code exc
  ∧ exc_status_code exc ≠ 403
  ∧ ∃ body, content r = Some body.
Proof.
  destruct (decide (exc_status_code exc = 403)) as [H3|H3].
  { rewrite http_403_branch by done. discriminate. }
  destruct (decide (exc_status_code exc = 401)) as [H1|H1].
  - rewrite http_401_branch by done.
    destruct (Py.call_lower _) as [lowered|e]; simpl; [|discriminate].
    intros [= <-]. simpl. split; [done|]. split; [done|]. by eexists.
  - rewrite http_echo_branch by done.
    intros [= <-]. simpl. split; [done|]. split; [done|]. by eexists.
Qed.

End http_answers.

(** X1.  In every body the HTTP error handler sends, a key of the detail
    mapping other than [status] and [code] has the detail's value, also when
    the key is [timestamp], [method] or [path]; these three come from the
    clock and the request only when the detail lacks them; and the body has
    no further key. *)
Theorem detail_overrides_request_fields now request exc r body :
  http_exception_handler now request exc = Returns r →
  content r = Some body →
  (∀ k v, k ≠ "status" → k ≠ "code" →
          normalized_detail (exc_detail exc) !! k = Some v →
          body !! k = Some v)
  ∧ (normalized_detail (exc_detail exc) !! "timestamp" = None →
     body !! "timestamp" = Some (VStr now))
  ∧ (normalized_detail (exc_detail exc) !! "method" = None →
     body !! "method" = Some (VStr (method request)))
  ∧ (normalized_detail (exc_detail exc) !! "path" = None →
     body !! "path" = Some (VStr (path request)))
  ∧ (∀ k, k ∉ envelope_fields →
          normalized_detail (exc_detail exc) !! k = None →
          body !! k = None).
Proof.
  intros Hr Hbody.
  destruct (http_response_inv _ _ _ _ _ Hr Hbody) as (z & -> & _).
  unfold stamped_body, envelope.
  split; [|repeat split].
  - intros k v Hs Hc Hk. apply lookup_union_Some_l. by rewrite stamp_other.
  - intros Hk. rewrite lookup_union_r by (by rewrite stamp_other).
    by rewrite lookup_insert_eq.
  - intros Hk. rewrite lookup_union_r by (by rewrite stamp_other).
    by rewrite lookup_insert_ne, lookup_insert_eq.
  - intros Hk. rewrite lookup_union_r by (by rewrite stamp_other).
    by rewrite !lookup_insert_ne, lookup_singleton_eq.
  - intros k Hk Hd. unfold envelope_fields in Hk.
    apply lookup_union_None. split.
    + rewrite stamp_other; [done|set_solver..].
    + rewrite !lookup_insert_ne, lookup_singleton_ne; [done|set_solver..].
Qed.

Lemma detail_overrides_request_fields_witness :
  http_exception_handler sample_now sample_request server_error_override
  = Returns {| status_code := 500;
               content := Some (stamped_body sample_now sample_request
                                  server_error_override 500) |}
  ∧ stamped_body sample_now sample_request server_error_override 500
      !! "path" = Some (VStr "/hidden")
  ∧ stamped_body sample_now sample_request server_error_override 500
      !! "method" = Some (VStr "POST").
Proof.
  split; [reflexivity|].
  destruct (detail_overrides_request_fields sample_now sample_request
              server_error_override
              {| status_code := 500;
                 content := Some (stamped_body sample_now sample_request
                                    server_error_override 500) |}
              (stamped_body sample_now sample_request
                 server_error_override 500)
              eq_refl eq_refl) as (Hkeep & _ & Hmethod & _).
  split; [apply Hkeep; [discriminate | discriminate | reflexivity]|].
  apply Hmethod. reflexivity.
Defined.

(** X2.  Whenever the HTTP error handler answers, the HTTP status of the
    answer is the status code of the error: the 401 branch changes the body
    only, and no branch changes the status line. *)
Theorem http_status_is_kept now request exc r :
  http_exception_handler now request exc = Returns r →
  status_code r = exc_status_code exc.
Proof. intros Hr. by destruct (http_answer_inv _ _ _ _ Hr) as (? & _). Qed.

Lemma http_status_is_kept_witness :
  http_exception_handler sample_now sample_request unauthorized_other
  = Returns {| status_code := 401;
               content := Some (stamped_body sample_now sample_request
                                  unauthorized_other 402) |}
  ∧ status_code {| status_code := 401;
                   content := Some (stamped_body sample_now sample_request
                                      unauthorized_other 402) |}
    = exc_status_code unauthorized_other.
Proof.
  split; [reflexivity|].
  apply (http_status_is_kept sample_now sample_request unauthorized_other).
  reflexivity.
Defined.

(** X3.  Whenever the HTTP error handler answers, the answer has a body,
    and the error it answers is not a 403: no response without content
    leaves the handler. *)
Theorem http_answer_has_body now request exc r :
  http_exception_handler now request exc = Returns r →
  exc_status_code exc ≠ 403 ∧ ∃ body, content r = Some body.
Proof. intros Hr. by destruct (http_answer_inv _ _ _ _ Hr) as (_ & ? & ?). Qed.

Lemma http_answer_has_body_witness :
  http_exception_handler sample_now sample_request not_found_plain
  = Returns {| status_code := 404;
               content := Some (stamped_body sample_now sample_request
                                  not_found_plain 404) |}
  ∧ exc_status_code not_found_plain ≠ 403
  ∧ ∃ body,
      content {| status_code := 404;
                 content := Some (stamped_body sample_now sample_request
                                    not_found_plain 404) |}
      = Some body.
Proof.
  split; [reflexivity|].
  apply (http_answer_has_body sample_now sample_request not_found_plain).
  reflexivity.
Defined.

(** X4.  A 401 error whose detail mapping has an [error] value that is not
    a string is not answered: [.lower()] raises the [AttributeError] of a
    value of that type, before any response is built. *)
Theorem non_string_error_raises now request exc m v :
  exc_status_code exc = 401 →
  exc_detail exc = VDict m →
  m !! "error" = Some v →
  (∀ s, v ≠ VStr s) →
  http_exception_handler now request exc
  = Raises (AttributeError (Py.type_name v) "lower").
Proof.
  intros H401 Hm Hv Hns. rewrite http_401_branch by done.
  rewrite Hm. simpl normalized_detail. unfold Py.get. rewrite Hv. simpl.
  destruct v as [[| | |text]|d]; try done. by destruct (Hns text).
Qed.

Lemma non_string_error_raises_witness :
  exc_status_code unauthorized_null_error = 401
  ∧ exc_detail unauthorized_null_error
    = VDict {[ "error" := VNone; "message" := VStr "denied" ]}
  ∧ ({[ "error" := VNone; "message" := VStr "denied" ]} : gmap string value)
      !! "error" = Some VNone
  ∧ (∀ s, VNone ≠ VStr s)
  ∧ http_exception_handler sample_now sample_request unauthorized_null_error
    = Raises (AttributeError "NoneType" "lower").
Proof.
  split; [reflexivity|]. split; [reflexivity|]. split; [reflexivity|].
  split; [discriminate|].
  apply (non_string_error_raises sample_now sample_request
           unauthorized_null_error
           {[ "error" := VNone; "message" := VStr "denied" ]} VNone);
    (reflexivity || discriminate).
Defined.

(** X5.  A 401 error whose detail is not a mapping, or is a mapping without
    an [error] key, is answered with HTTP status 401 and a body whose
    [status] and [code] are 402: the word "autho" is looked for in the
    [error] field only, never in the message. *)
Theorem unauthorized_without_error_is_402 now request exc :
  exc_status_code exc = 401 →
  (∃ c, exc_detail exc = VScalar c)
  ∨ (∃ d, exc_detail exc = VDict d ∧ d !! "error" = None) →
  ∃ body,
    http_exception_handler now request exc
    = Returns {| status_code := 401; content := Some body |}
    ∧ body !! "status" = Some (VInt 402)
    ∧ body !! "code" = Some (VInt 402).
Proof.
  intros H401 Hcase. rewrite http_401_branch by done. unfold Py.get.
  assert (∃ text, normalized_detail (exc_detail exc) !! "error" = text
                  ∧ (text = Some (VStr "Error") ∨ text = None))
    as (text & -> & Htext).
  { destruct Hcase as [[c ->]|(d & -> & Hd)]; eexists; split; try done.
    - by left.
    - by right. }
  destruct Htext as [->| ->]; simpl; eexists; (split; [reflexivity|]);
    split; apply envelope_detail; (apply stamp_status || apply stamp_code).
Qed.

Lemma unauthorized_without_error_is_402_witness :
  exc_status_code unauthorized_plain = 401
  ∧ ((∃ c, exc_detail unauthorized_plain = VScalar c)
     ∨ (∃ d, exc_detail unauthorized_plain = VDict d ∧ d !! "error" = None))
  ∧ ∃ body,
      http_exception_handler sample_now sample_request unauthorized_plain
      = Returns {| status_code := 401; content := Some body |}
      ∧ body !! "status" = Some (VInt 402)
      ∧ body !! "code" = Some (VInt 402).
Proof.
  split; [reflexivity|].
  assert ((∃ c, exc_detail unauthorized_plain = VScalar c)
          ∨ (∃ d, exc_detail unauthorized_plain = VDict d
                  ∧ d !! "error" = None)) as Hcase.
  { left. by exists (SStr "Not authorized"). }
  split; [exact Hcase|].
  apply (unauthorized_without_error_is_402 sample_now sample_request
           unauthorized_plain); [reflexivity | exact Hcase].
Defined.

(** ** Further properties of the validation message *)

Lemma join_app sep (l1 l2 : list string) :
  l1 ≠ [] → l2 ≠ [] →
  Py.join sep (l1 ++ l2)%list = Py.join sep l1 +:+ sep +:+ Py.join sep l2.
Proof.
  intros H1 H2. induction l1 as [|x [|y l1] IH]; [done| |].
  - destruct l2 as [|z l2]; [done|]. reflexivity.
  - change (Py.join sep ((x :: y :: l1) ++ l2)%list)
      with (x +:+ sep +:+ Py.join sep ((y :: l1) ++ l2)%list).
    rewrite IH by done.
    change (Py.join sep (x :: y :: l1))
      with (x +:+ sep +:+ Py.join sep (y :: l1)).
    by rewrite !app_assoc.
Qed.

Lemma validation_message_of now request exc :
  message_of (validation_exception_handler now request exc)
  = Some (Py.join " " (map field_message (errors exc))).
Proof. reflexivity. Qed.

(** X6.  The validation message of a list of field errors made of two
    non-empty parts is the message of the first part, one space, and the
    message of the second part; with no field error at all the message is
    the empty string. *)
Theorem validation_message_concatenates now request errs1 errs2 m1 m2 :
  errs1 ≠ [] → errs2 ≠ [] →
  message_of (validation_exception_handler now request {| errors := errs1 |})
  = Some m1 →
  message_of (validation_exception_handler now request {| errors := errs2 |})
  = Some m2 →
  message_of (validation_exception_handler now request
                {| errors := (errs1 ++ errs2)%list |})
  = Some (m1 +:+ " " +:+ m2)
  ∧ message_of (validation_exception_handler now request {| errors := [] |})
    = Some "".
Proof.
  rewrite !validation_message_of. simpl errors.
  intros H1 H2 [= <-] [= <-]. split; [|reflexivity].
  rewrite map_app, join_app; [done|by destruct errs1|by destruct errs2].
Qed.

Lemma validation_message_concatenates_witness :
  [name_error] ≠ [] ∧ [item_error] ≠ []
  ∧ message_of (validation_exception_handler sample_now sample_request
                  {| errors := [name_error] |})
    = Some "name: required"
  ∧ message_of (validation_exception_handler sample_now sample_request
                  {| errors := [item_error] |})
    = Some "items.0.age: must be integer"
  ∧ message_of (validation_exception_handler sample_now sample_request
                  {| errors := ([name_error] ++ [item_error])%list |})
    = Some ("name: required" +:+ " " +:+ "items.0.age: must be integer")
  ∧ message_of (validation_exception_handler sample_now sample_request
                  {| errors := [] |})
    = Some "".
Proof.
  split; [discriminate|]. split; [discriminate|].
  split; [reflexivity|]. split; [reflexivity|].
  apply (validation_message_concatenates sample_now sample_request
           [name_error] [item_error]); (discriminate || reflexivity).
Defined.

(** X7.  A field error whose location has at most one segment (an error on
    the body as a whole) has an empty path: alone, it gives a message that
    is ": " followed by the error's text. *)
Theorem short_location_gives_empty_path now request error :
  (length (loc error) ≤ 1)%nat →
  message_of (validation_exception_handler now request
                {| errors := [error] |})
  = Some (": " +:+ msg error).
Proof.
  intros Hlen. rewrite validation_message_of. simpl.
  unfold field_message.
  destruct (loc error) as [|first [|second rest]]; [done..|].
  simpl in Hlen. lia.
Qed.

Lemma short_location_gives_empty_path_witness :
  (length (loc {| loc := [LocName "body"]; msg := "field required" |}) ≤ 1)%nat
  ∧ message_of (validation_exception_handler sample_now sample_request
                  {| errors := [ {| loc := [LocName "body"];
                                    msg := "field required" |} ] |})
    = Some (": " +:+ "field required").
Proof.
  split; [simpl; lia|].
  apply (short_location_gives_empty_path sample_now sample_request
           {| loc := [LocName "body"]; msg := "field required" |}).
  simpl. lia.
Defined.

(** ** Further properties of the catch-all handler *)

(** X8.  The catch-all handler answers with the primary message exactly
    when the exception is not a [LocalProtocolError], [str(exc)] returns and
    the request's URL can be read; whenever it answers otherwise, the
    message is the fallback one. *)
Theorem primary_message_iff now now' (request : Incoming) exc :
  (message_of (general_exception_handler now now' request exc)
   = Some primary_message
   ↔ is_LocalProtocolError exc = false
     ∧ (∃ text, exc_str exc = Returns text)
     ∧ ∃ url_path, request_url_path request = Returns url_path)
  ∧ (∀ m, message_of (general_exception_handler now now' request exc)
          = Some m →
          m = primary_message ∨ m = fallback_message).
Proof.
  assert (Some fallback_message ≠ Some primary_message) as Hdiff.
  { intros Hm. apply fallback_differs. congruence. }
  split.
  - unfold general_exception_handler, general_try_block, general_except_block.
    destruct (exc_str exc) as [text|e]; simpl.
    + destruct request as [request|method reason]; simpl.
      * destruct (is_LocalProtocolError exc); simpl.
        -- split; [done|]. by intros [? _].
        -- split; [|done]. intros _. split; [done|]. split; by eexists.
      * split; [done|]. by intros (_ & _ & ? & ?).
    + split; [|by intros (_ & (? & ?) & _)].
      destruct (Py.exn_str e) as [text|e']; simpl; [|done].
      destruct request as [request|method reason]; simpl; done.
  - intros m Hm.
    destruct (general_exception_handler now now' request exc) as [r|e] eqn:Hr;
      [|done].
    destruct (general_handler_returns_inv _ _ _ _ _ Hr)
      as (t & p & m' & -> & Hm').
    simpl in Hm. injection Hm as <-. exact Hm'.
Qed.

(** X9.  The answer of the catch-all handler does not depend on what the
    exception says: two exceptions that are both [LocalProtocolError]s or
    both not, and whose [str] both return, get the same answer. *)
Theorem general_answer_hides_exception_text
    now now' request exc1 exc2 text1 text2 :
  is_LocalProtocolError exc1 = is_LocalProtocolError exc2 →
  exc_str exc1 = Returns text1 → exc_str exc2 = Returns text2 →
  general_exception_handler now now' request exc1
  = general_exception_handler now now' request exc2.
Proof.
  intros Hl H1 H2. unfold general_exception_handler, general_try_block.
  by rewrite H1, H2, Hl.
Qed.

Lemma general_answer_hides_exception_text_witness :
  is_LocalProtocolError key_error = is_LocalProtocolError value_error
  ∧ exc_str key_error = Returns "'user_id'"
  ∧ exc_str value_error = Returns "invalid literal for int()"
  ∧ general_exception_handler sample_now sample_now sample_request key_error
    = general_exception_handler sample_now sample_now sample_request
        value_error.
Proof.
  split; [reflexivity|]. split; [reflexivity|]. split; [reflexivity|].
  apply (general_answer_hides_exception_text sample_now sample_now
           sample_request key_error value_error
           "'user_id'" "invalid literal for int()"); reflexivity.
Defined.
